(** * Lunar phase card: the [Moon] data adapter of src/utils/moon.ts

    JavaScript numbers are modelled as exact rationals [Q]; a [Date] as its
    epoch time in milliseconds ([Z]); a JS string as a Rocq [string] holding
    its UTF-8 encoding (so string equality is preserved).  The third-party
    collaborators (SunCalc, localize, formatNumber, the helpers module) are
    section variables of the definitions that call them. *)

From Stdlib Require Import ZArith QArith Qround Qabs Ascii String List Bool Lia Lqa.
Import ListNotations.

Open Scope string_scope.
Open Scope Z_scope.

(** ** JavaScript primitives *)

(** [Math.round]: nearest integer, ties towards +Infinity. *)
Definition Math_round (x : Q) : Z := Qfloor (x + (1 # 2))%Q.

(** [Math.floor] and [Math.ceil]. *)
Definition Math_floor (x : Q) : Z := Qfloor x.
Definition Math_ceil (x : Q) : Z := Qceiling x.

(** [Math.PI]: the double nearest to pi, whose exact value is this rational. *)
Definition Math_PI : Q := 884279719003555 # 281474976710656.

(** Indexing an array, [arr[i]]: [undefined] (here [None]) outside the array,
    negative indices included. *)
Definition js_index {A : Type} (arr : list A) (i : Z) : option A :=
  if i <? 0 then None else nth_error arr (Z.to_nat i).

(** The [%] operator on integers: the remainder takes the sign of the
    dividend, which is [Z.rem]. *)
Definition js_rem (a b : Z) : Z := Z.rem a b.

(** JS truthiness of an optional string argument: [undefined] and [''] are
    falsy. *)
Definition truthy (s : option string) : bool :=
  match s with
  | None => false
  | Some u => negb (String.eqb u "")
  end.

(** ** _convertCardinal *)

Definition cardinalPoints : list string :=
  ["N"; "NE"; "E"; "SE"; "S"; "SW"; "W"; "NW"; "N"].

Definition _convertCardinal (degrees : Q) : option string :=
  js_index cardinalPoints (Math_round (degrees / 45)%Q).

(** The fixed 8-point compass table of the spec (not in the source; used to
    state the spec's description). *)
Definition compass8 : list string := ["N"; "NE"; "E"; "SE"; "S"; "SW"; "W"; "NW"].

(** ** Number.prototype.toFixed(2) *)

(** The digits of [x.toFixed(2)]: the sign, and the integer [n] for which
    [n / 100 - |x|] is closest to zero, the larger one on a tie.  (Magnitudes
    of [10^21] and above, printed in exponent form, are not modelled.) *)
Definition toFixed2_neg (x : Q) : bool := negb (Qle_bool 0 x).
Definition toFixed2_digits (x : Q) : Z := Qfloor (Qabs x * 100 + (1 # 2))%Q.

(** [Number(x.toFixed(2))]: the value the fixed string denotes. *)
Definition toFixed2_num (x : Q) : Q :=
  let n := toFixed2_digits x in
  if toFixed2_neg x then (- n # 100)%Q else (n # 100)%Q.

Definition digit_char (d : Z) : Ascii.ascii := Ascii.ascii_of_nat (48 + Z.to_nat d).

Fixpoint decimal_aux (fuel : nat) (n : Z) (acc : string) : string :=
  match fuel with
  | O => acc
  | S f =>
      let acc' := String (digit_char (n mod 10)) acc in
      if n <? 10 then acc' else decimal_aux f (n / 10) acc'
  end.

(** Decimal notation of a non-negative integer. *)
Definition decimal (n : Z) : string := decimal_aux (S (Z.to_nat (Z.log2 (n + 1)))) n "".

(** The string [x.toFixed(2)]. *)
Definition toFixed2 (x : Q) : string :=
  let n := toFixed2_digits x in
  (if toFixed2_neg x then "-" else "") ++ decimal (n / 100) ++ "."
    ++ String (digit_char ((n mod 100) / 10)) (String (digit_char (n mod 10)) "").

(** ** SunCalc results *)

(** The fields of SunCalc's [IMoonData] the adapter reads; instants are epoch
    milliseconds. *)
Record IMoonData := {
  distance : Q;
  azimuthDegrees : Q;
  altitudeDegrees : Q;
  fraction : Q;
  phaseValue : Q;
  nextFullMoon : Z;
  nextNewMoon : Z;
  zenithAngle : Q;
  parallacticAngle : Q
}.

(** SunCalc's [IMoonTimes]: [highest] is optional. *)
Record IMoonTimes := {
  rise : Z;
  set : Z;
  highest : option Z
}.

(** ** The adapter's results *)

Record MoonImage := {
  moonPic : option string;
  rotateDeg : Q
}.

Record MoonDataItem := {
  label : string;
  value : string;
  secondValue : string
}.

(** [MoonData]: [moonHighest] is an optional field. *)
Record MoonData := {
  moonFraction : MoonDataItem;
  moonAge : MoonDataItem;
  moonRise : MoonDataItem;
  moonSet : MoonDataItem;
  moonHighest : option MoonDataItem;
  distanceItem : MoonDataItem;
  azimuthDegress : MoonDataItem;
  altitudeDegreesItem : MoonDataItem;
  nextFullMoonItem : MoonDataItem;
  nextNewMoonItem : MoonDataItem
}.

(** Modelled from the spec: [convertKmToMiles] of src/utils/helpers.ts (not in
    the sources): "linear conversion km to mi (factor 0.621371) when [useMiles]
    true, else identity". *)
Definition convertKmToMiles (km : Q) (useMiles : bool) : Q :=
  if useMiles then (km * (621371 # 1000000))%Q else km.

(** A JS object used as a map from string keys, as an association list in
    property order.  Assignment [o[k] = v] overwrites the value of an existing
    key in place and appends a new key at the end (the order of keys that are
    not canonical array indices, as time labels are not). *)
Fixpoint obj_set {V : Type} (o : list (string * V)) (k : string) (v : V)
  : list (string * V) :=
  match o with
  | [] => [(k, v)]
  | (k', v') :: o' => if String.eqb k k' then (k, v) :: o' else (k', v') :: obj_set o' k v
  end.

(** [Math.max(...l)] and [Math.min(...l)]; [None] stands for the
    [-Infinity] and [Infinity] they return on no arguments. *)
Definition max_step (m y : Q) : Q := if Qle_bool y m then m else y.
Definition min_step (m y : Q) : Q := if Qle_bool m y then m else y.

Definition Math_max_list (l : list Q) : option Q :=
  match l with
  | [] => None
  | x :: r => Some (fold_left max_step r x)
  end.

Definition Math_min_list (l : list Q) : option Q :=
  match l with
  | [] => None
  | x :: r => Some (fold_left min_step r x)
  end.

(** The text of a present optional string. *)
Definition or_empty (s : option string) : string :=
  match s with Some u => u | None => "" end.

Section MoonSec.
(** [this.lang] and [this.useMiles] of the [Moon] instance. *)
Variable lang : string.
Variable useMiles : bool.
(** [MOON_IMAGES] of src/utils/moon-pic.ts. *)
Variable MOON_IMAGES : list string.
(** [localize(key, lang, search, replace)]. *)
Variable localize : string -> string -> string -> string -> string.
(** [formatNumber(num, this.locale)] of custom-card-helpers. *)
Variable formatNumber : string -> string.
(** [this.formatTime], i.e. [formatedTime(time, this.amPm, this.lang)]. *)
Variable formatTime : Z -> string.
(** [formatRelativeTime(new Date(time).toISOString())]: a key and an
    optional value. *)
Variable formatRelativeTime : Z -> string * option string.
(** [new Date(date).toLocaleDateString(lang, {weekday, month, day})]. *)
Variable toLocaleDateString : Z -> string.
(** [SunCalc.getMoonPosition(time, lat, lon).altitudeDegrees]. *)
Variable altitudeAt : Z -> Q.

Definition localize1 (key : string) : string := localize key lang "" "".

(** *** moonImage *)

Definition phaseIndex (d : IMoonData) : Z :=
  js_rem (Math_floor (phaseValue d * 31)%Q) 31.

Definition moonImage (d : IMoonData) : MoonImage :=
  let rotate := ((zenithAngle d - parallacticAngle d) * (180 / Math_PI))%Q in
  {| moonPic := js_index MOON_IMAGES (phaseIndex d); rotateDeg := rotate |}.

(** *** Display items *)

Definition listed_langs : list string := ["cs"; "de"; "fi"; "fr"; "sk"; "sv"].

Definition blackBeforeUnit (unit : string) : string :=
  if String.eqb unit "°" then ""
  else if String.eqb unit "%" then
    (if existsb (String.eqb lang) listed_langs then " " else "")
  else " ".

Definition createItem (lbl value : string) (unit secondValue : option string)
  : MoonDataItem :=
  {| label := localize1 ("card." ++ lbl);
     value := value ++ (if truthy unit
                        then blackBeforeUnit (or_empty unit) ++ or_empty unit
                        else "");
     secondValue := if truthy secondValue then or_empty secondValue else "" |}.

Definition localizeRelativeTime (time : Z) : string :=
  let (key, v) := formatRelativeTime time in
  if truthy v then localize key lang "{0}" (or_empty v) else localize1 key.

Definition createMoonTime (key : string) (time : Z) : MoonDataItem :=
  let timeString := formatTime time in
  let second := localizeRelativeTime time in
  createItem key timeString (Some "") (Some second).

(** *** moonData *)

Definition moonData (d : IMoonData) (t : IMoonTimes) : MoonData :=
  let fmoonFraction := formatNumber (toFixed2 (fraction d * 100)%Q) in
  let fmoonAge := formatNumber (toFixed2 (phaseValue d * (2953 # 100))%Q) in
  let fdistance := formatNumber (toFixed2 (convertKmToMiles (distance d) useMiles)) in
  let fazimuth := formatNumber (toFixed2 (azimuthDegrees d)) in
  let faltitude := formatNumber (toFixed2 (altitudeDegrees d)) in
  {| moonFraction := createItem "illumination" fmoonFraction (Some "%") None;
     moonAge := createItem "moonAge" fmoonAge (Some (localize1 "card.relativeTime.days")) None;
     moonRise := createMoonTime "moonRise" (rise t);
     moonSet := createMoonTime "moonSet" (set t);
     moonHighest := match highest t with
                    | Some h => Some (createMoonTime "moonHigh" h)
                    | None => None
                    end;
     distanceItem := createItem "distance" fdistance (Some (if useMiles then "mi" else "km")) None;
     azimuthDegress := createItem "azimuth" fazimuth (Some "°") None;
     altitudeDegreesItem := createItem "altitude" faltitude (Some "°") None;
     nextFullMoonItem := createItem "fullMoon" (toLocaleDateString (nextFullMoon d)) None None;
     nextNewMoonItem := createItem "newMoon" (toLocaleDateString (nextNewMoon d)) None None |}.

(** *** The daily altitude profile *)

(** The instant of the [i]-th sample: [startTime.getTime() + i * 30 * 60 * 1000]. *)
Definition sampleTime (startTime : Z) (i : nat) : Z :=
  startTime + Z.of_nat i * 30 * 60 * 1000.

(** One iteration of the loop of [_getAltituteData]. *)
Definition altitude_step (startTime : Z) (result : list (string * Q)) (i : nat)
  : list (string * Q) :=
  let time := sampleTime startTime i in
  obj_set result (formatTime time) (toFixed2_num (altitudeAt time)).

(** [for (let i = 0; i < 48; i++) ...] starting from [{}]. *)
Definition _getAltituteData (startTime : Z) : list (string * Q) :=
  fold_left (altitude_step startTime) (seq 0 48) [].

Record MinMaxY := {
  sugestedYMax : option Z;
  sugestedYMin : option Q
}.

(** The chart fields of [todayData]; [startTime] is today's local
    midnight, [new Date(today.setHours(0, 0, 0, 0))]. *)
Record TodayData := {
  altitude : list (string * Q);
  timeLabels : list string;
  altitudeData : list Q;
  minMaxY : MinMaxY
}.

Definition todayData (startTime : Z) : TodayData :=
  let _altitudeData := _getAltituteData startTime in
  {| altitude := _getAltituteData startTime;
     timeLabels := map fst _altitudeData;
     altitudeData := map snd _altitudeData;
     minMaxY :=
       {| sugestedYMax := option_map (fun m => Math_ceil (m + 10)%Q)
                            (Math_max_list (map snd _altitudeData));
          sugestedYMin := option_map (fun m => (m - 10)%Q)
                            (Math_min_list (map snd _altitudeData)) |} |}.
End MoonSec.

(** Modelled from the spec: [formatedTime] of src/utils/helpers.ts (not in the
    sources), "the wall-clock label per the active 12/24-hour setting", here in
    24-hour form "HH:MM", for a time zone given by its UTC offset (in ms) at
    each instant. *)
Definition two_digits (n : Z) : string :=
  String (digit_char (n / 10)) (String (digit_char (n mod 10)) "").

Definition formatedTime24 (offset : Z -> Z) (time : Z) : string :=
  let minutes := ((time + offset time) / 60000) mod 1440 in
  two_digits (minutes / 60) ++ ":" ++ two_digits (minutes mod 60).

(** The offset of America/New_York around the end of daylight saving time on
    2024-11-03: UTC-4 before 06:00 UTC, UTC-5 from then on. *)
Definition new_york_fall_2024 (time : Z) : Z :=
  if time <? 1730613600000 then - 4 * 3600000 else - 5 * 3600000.

(** Local midnight of 2024-11-03 in New York, 04:00 UTC. *)
Definition fall_back_midnight : Z := 1730606400000.

(** U+200A HAIR SPACE, as its UTF-8 bytes E2 80 8A. *)
Definition hairline_space : string :=
  String (Ascii.ascii_of_nat 226) (String (Ascii.ascii_of_nat 128)
    (String (Ascii.ascii_of_nat 138) "")).

(** A sample whose zenith and parallactic angles differ by 7 radians. *)
Definition steep_sample : IMoonData :=
  {| distance := 384400; azimuthDegrees := 0; altitudeDegrees := 0; fraction := 0;
     phaseValue := 0; nextFullMoon := 0; nextNewMoon := 0;
     zenithAngle := 4; parallacticAngle := -3 |}.

(** ** More of the [Moon] class *)

(** [x.toFixed(0)]: the sign and the nearest integer to [|x|], the larger on a
    tie (magnitudes of [10^21] and above are not modelled). *)
Definition toFixed0 (x : Q) : string :=
  (if toFixed2_neg x then "-" else "") ++ decimal (Qfloor (Qabs x + (1 # 2))%Q).

(** [Number(s)] on the decimal strings that [toFixed] produces: an optional
    minus sign, digits, and optionally a point followed by digits; [None] on strings outside that form, which are not modelled.
    The state is the digits read so far as an integer, the power of ten of the
    digits after the point, and whether the point has been seen. *)
Definition digit_value (c : Ascii.ascii) : option Z :=
  let k := Z.of_nat (Ascii.nat_of_ascii c) - 48 in
  if (0 <=? k) && (k <? 10) then Some k else None.

Definition number_step (st : option (Z * Z * bool)) (c : Ascii.ascii)
  : option (Z * Z * bool) :=
  match st with
  | None => None
  | Some (num, scale, seen) =>
      if Ascii.eqb c "."%char then (if seen then None else Some (num, scale, true))
      else match digit_value c with
           | None => None
           | Some dg => Some (num * 10 + dg, if seen then scale * 10 else scale, seen)
           end
  end.

Definition Number_unsigned (s : string) : option Q :=
  match fold_left number_step (list_ascii_of_string s) (Some (0, 1, false)) with
  | Some (num, scale, _) => Some (Qmake num (Z.to_pos scale))
  | None => None
  end.

Definition Number_fixed (s : string) : option Q :=
  match s with
  | String c r => if Ascii.eqb c "-"%char then option_map Qopp (Number_unsigned r)
                  else Number_unsigned s
  | EmptyString => Number_unsigned s
  end.

(** Reading [o[k]] from a string-keyed object: [None] for [undefined]. *)
Fixpoint obj_get {V : Type} (o : list (string * V)) (k : string) : option V :=
  match o with
  | [] => None
  | (k', v') :: o' => if String.eqb k k' then Some v' else obj_get o' k
  end.

(** [Array.prototype.toString] on an array of strings: joined with ",". *)
Definition js_array_toString (l : list string) : string := String.concat "," l.

(** [setMoonImagesToStorage]: [JSON.parse(JSON.stringify(MOON_IMAGES))] is a
    copy of the array of strings, and [localStorage.setItem] stores its string
    conversion under "moonImages"; the store is a string-keyed object. *)
Definition setMoonImagesToStorage (MOON_IMAGES : list string)
  (localStorage : list (string * string)) : list (string * string) :=
  obj_set localStorage "moonImages" (js_array_toString MOON_IMAGES).

Record TodayDataItem := {
  positionFormated : MoonDataItem;
  azimuthCardinal : MoonDataItem;
  _altitudeDegData : MoonDataItem;
  _moonFraction : MoonDataItem;
  distanceToday : MoonDataItem
}.

(** The result of [_getRiseSetData]: [None] stands for the [NaN] index and
    altitude of an [Invalid Date] (a missing time). *)
Record RiseSetData := {
  riseSetIndex : Z;
  riseSetAltitude : Q
}.

Section MoonSec2.
Variable lang : string.
Variable useMiles : bool.
Variable localize : string -> string -> string -> string -> string.
Variable formatNumber : string -> string.
Variable formatTime : Z -> string.
Variable formatRelativeTime : Z -> string * option string.
Variable toLocaleDateString : Z -> string.
Variable altitudeAt : Z -> Q.
(** The offset in ms of the local time zone from UTC at an instant. *)
Variable localOffset : Z -> Z.
(** [timeData[timeKey]] of [SunCalc.getMoonTimes(new Date(), lat, lon)]:
    [None] when the key is absent or undefined. *)
Variable todayMoonTimes : string -> option Z.

Definition _getMoonRotation (d : IMoonData) : Q :=
  ((zenithAngle d - parallacticAngle d) * (180 / Math_PI))%Q.

Definition todayDataItem (d : IMoonData) (t : IMoonTimes) : TodayDataItem :=
  let md := moonData lang useMiles localize formatNumber formatTime
              formatRelativeTime toLocaleDateString d t in
  let formatedPosition :=
    if negb (Qle_bool (altitudeDegrees d) 0) then "overHorizon" else "underHorizon" in
  let azimutDegFormated := formatNumber (toFixed0 (azimuthDegrees d)) in
  let cardiNalValue := _convertCardinal (azimuthDegrees d) in
  {| positionFormated :=
       createItem lang localize "position" (localize1 lang localize ("card." ++ formatedPosition))
         None None;
     azimuthCardinal :=
       createItem lang localize "direction" azimutDegFormated (Some "°") cardiNalValue;
     _altitudeDegData := altitudeDegreesItem md;
     _moonFraction := moonFraction md;
     distanceToday := distanceItem md |}.

(** [Date.prototype.getHours] and [getMinutes] in the local time zone. *)
Definition getHours (time : Z) : Z := ((time + localOffset time) / 3600000) mod 24.
Definition getMinutes (time : Z) : Z := ((time + localOffset time) / 60000) mod 60.

Definition _getRiseSetData (timeKey : string) : option RiseSetData :=
  match todayMoonTimes timeKey with
  | None => None
  | Some time =>
      let hour := (inject_Z (getHours time) + inject_Z (getMinutes time) / 60)%Q in
      let index := Math_floor (hour * 2)%Q in
      Some {| riseSetIndex := index; riseSetAltitude := altitudeAt time |}
  end.
End MoonSec2.

(** ** Properties of the compass lookup *)

Lemma Math_round_bounds (x : Q) (lo hi : Z) :
  (inject_Z lo - (1 # 2) <= x)%Q -> (x < inject_Z hi + (1 # 2))%Q ->
  lo <= Math_round x <= hi.
Proof.
  intros Hlo Hhi. unfold Math_round. split.
  - rewrite <- (Qfloor_Z lo). apply Qfloor_resp_le. lra.
  - assert (Hf := Qfloor_le (x + (1 # 2))).
    assert (Qfloor (x + (1 # 2)) < hi + 1)%Z; [| lia].
    rewrite Zlt_Qlt, inject_Z_plus. change (inject_Z 1) with (1 # 1). lra.
Qed.

Lemma Math_round_neg (x : Q) : (x < - (1 # 2))%Q -> Math_round x < 0.
Proof.
  intro H. unfold Math_round. assert (Hf := Qfloor_le (x + (1 # 2))).
  rewrite Zlt_Qlt. change (inject_Z 0) with (0 # 1). lra.
Qed.

Lemma Math_round_ge (x : Q) (n : Z) : (inject_Z n - (1 # 2) <= x)%Q -> n <= Math_round x.
Proof.
  intro H. unfold Math_round. assert (Hf := Qlt_floor (x + (1 # 2))).
  assert (n < Qfloor (x + (1 # 2)) + 1)%Z; [| lia].
  rewrite Zlt_Qlt, inject_Z_plus. rewrite inject_Z_plus in Hf.
  change (inject_Z 1) with (1 # 1) in *. lra.
Qed.

Ltac div45 := unfold Qdiv in *; change (/ 45)%Q with (1 # 45)%Q in *.

Ltac enum_index k lo hi :=
  let Hk := fresh in
  assert (Hk : lo <= k <= hi) by lia;
  match eval compute in (hi - lo) with
  | 0 => assert (k = lo) by lia; subst k
  | _ => destruct (Z.eq_dec k lo);
         [subst k | enum_index k (lo + 1) hi]
  end.

(** C2: on [0, 360] the lookup in the 9-entry table agrees with the 8-point
    compass table indexed by [round(azimuth / 45) mod 8]; it always yields a
    compass point, and both 0 and 360 give "N". *)
Theorem convertCardinal_compass (azimuth : Q) (H : (0 <= azimuth <= 360)%Q) :
  _convertCardinal azimuth = js_index compass8 (Math_round (azimuth / 45)%Q mod 8)
  /\ (exists p, _convertCardinal azimuth = Some p /\ In p compass8)
  /\ _convertCardinal 0 = Some "N" /\ _convertCardinal 360 = Some "N".
Proof.
  assert (Hb : 0 <= Math_round (azimuth / 45)%Q <= 8).
  { apply Math_round_bounds; change (inject_Z 0) with (0 # 1);
      change (inject_Z 8) with (8 # 1); div45; lra. }
  unfold _convertCardinal at 1 2.
  remember (Math_round (azimuth / 45)%Q) as k eqn:Hk. clear Hk.
  enum_index k 0 8;
    (split; [reflexivity |]);
    (split; [eexists; split; [reflexivity | simpl; tauto] | split; reflexivity]).
Qed.



(** C10: the table has 9 entries with "N" at indices 0 and 8, and the index
    [round(degrees / 45)] is not reduced: at 382.5 degrees and above, and
    below -22.5 degrees, the lookup falls outside the table ([undefined]). *)
Theorem convertCardinal_outside_table (degrees : Q)
  (H : (765 # 2 <= degrees)%Q \/ (degrees < - (45 # 2))%Q) :
  length cardinalPoints = 9%nat /\ nth_error cardinalPoints 0 = Some "N"
  /\ nth_error cardinalPoints 8 = Some "N" /\ _convertCardinal degrees = None.
Proof.
  split; [reflexivity |]. split; [reflexivity |]. split; [reflexivity |].
  unfold _convertCardinal, js_index. destruct H as [H | H].
  - assert (Hr : 9 <= Math_round (degrees / 45)%Q).
    { apply Math_round_ge. change (inject_Z 9) with (9 # 1). div45. lra. }
    replace (Math_round (degrees / 45)%Q <? 0) with false by lia.
    apply nth_error_None. simpl. lia.
  - assert (Hr := Math_round_neg (degrees / 45)%Q ltac:(div45; lra)).
    replace (Math_round (degrees / 45)%Q <? 0) with true by lia. reflexivity.
Qed.

(** ** Properties of the image selection *)

Lemma floor_phase_bounds (pv : Q) : (0 <= pv < 1)%Q -> 0 <= Qfloor (pv * 31)%Q <= 30.
Proof.
  intro H. split.
  - rewrite <- (Qfloor_Z 0). apply Qfloor_resp_le. change (inject_Z 0) with (0 # 1). lra.
  - assert (Hf := Qfloor_le (pv * 31)%Q).
    assert (Qfloor (pv * 31)%Q < 31); [| lia].
    rewrite Zlt_Qlt. change (inject_Z 31) with (31 # 1). lra.
Qed.

(** C4: for a phase value in [0, 1) the phase index [floor(phaseValue * 31) % 31]
    lies in [0, 30] and equals [floor(phaseValue * 31) mod 31]; with the 31
    images of [MOON_IMAGES] it always selects one of them. *)
Theorem phaseIndex_in_range (MOON_IMAGES : list string) (d : IMoonData)
  (Hpv : (0 <= phaseValue d < 1)%Q) (Hlen : length MOON_IMAGES = 31%nat) :
  phaseIndex d = Math_floor (phaseValue d * 31)%Q mod 31
  /\ 0 <= phaseIndex d <= 30
  /\ exists pic, moonPic (moonImage MOON_IMAGES d) = Some pic /\ In pic MOON_IMAGES.
Proof.
  assert (Hb := floor_phase_bounds (phaseValue d) Hpv).
  assert (Hi : phaseIndex d = Qfloor (phaseValue d * 31)%Q).
  { unfold phaseIndex, js_rem, Math_floor. apply Z.rem_small. lia. }
  split; [rewrite Hi; unfold Math_floor; symmetry; apply Z.mod_small; lia |].
  split; [lia |].
  simpl. unfold js_index. rewrite Hi.
  replace (Qfloor (phaseValue d * 31)%Q <? 0) with false by lia.
  destruct (nth_error MOON_IMAGES (Z.to_nat (Qfloor (phaseValue d * 31)%Q))) as [pic |] eqn:E.
  - exists pic. split; [reflexivity |]. eapply nth_error_In. exact E.
  - apply nth_error_None in E. lia.
Qed.

(** C5: the image is the entry of [MOON_IMAGES] at [floor(phaseValue * 31) % 31]
    and the rotation is [(zenithAngle - parallacticAngle) * (180 / Math.PI)],
    unclamped: a 7-radian difference gives more than 360 degrees. *)
Theorem moonImage_formula (MOON_IMAGES : list string) (d : IMoonData) :
  moonPic (moonImage MOON_IMAGES d)
    = js_index MOON_IMAGES (Z.rem (Qfloor (phaseValue d * 31)%Q) 31)
  /\ rotateDeg (moonImage MOON_IMAGES d)
    = ((zenithAngle d - parallacticAngle d) * (180 / Math_PI))%Q
  /\ (360 < rotateDeg (moonImage MOON_IMAGES steep_sample))%Q.
Proof.
  split; [reflexivity |]. split; [reflexivity |].
  vm_compute. reflexivity.
Qed.

(** ** Properties of the JS object and of Math.max / Math.min *)

Section ObjSet.
Context {V : Type}.

Lemma obj_set_keys (o : list (string * V)) k v k' :
  In k' (map fst (obj_set o k v)) <-> k' = k \/ In k' (map fst o).
Proof.
  induction o as [| [k0 v0] o IH]; simpl; [intuition congruence |].
  destruct (String.eqb k k0) eqn:E; simpl.
  - apply String.eqb_eq in E. subst k0. intuition congruence.
  - rewrite IH. intuition congruence.
Qed.

Lemma obj_set_nodup (o : list (string * V)) k v :
  NoDup (map fst o) -> NoDup (map fst (obj_set o k v)).
Proof.
  induction o as [| [k0 v0] o IH]; simpl; intro Hnd.
  - constructor; [simpl; tauto | constructor].
  - inversion Hnd as [| ? ? Hnin Hnd']; subst.
    destruct (String.eqb k k0) eqn:E; simpl.
    + apply String.eqb_eq in E. subst k0. constructor; assumption.
    + constructor; [| apply IH; assumption].
      rewrite obj_set_keys. intros [Heq | Hin]; [| contradiction].
      subst k0. rewrite String.eqb_refl in E. discriminate.
Qed.

Lemma obj_set_entry (o : list (string * V)) k v p :
  In p (obj_set o k v) -> p = (k, v) \/ In p o.
Proof.
  induction o as [| [k0 v0] o IH]; simpl.
  - intros [H | []]. left; symmetry; exact H.
  - destruct (String.eqb k k0); simpl.
    + intros [H | H]; [left; symmetry; exact H | right; right; exact H].
    + intros [H | H]; [right; left; exact H |].
      destruct (IH H); [left | right; right]; assumption.
Qed.

Lemma obj_set_fresh (o : list (string * V)) k v :
  ~ In k (map fst o) -> obj_set o k v = (o ++ [(k, v)])%list.
Proof.
  induction o as [| [k0 v0] o IH]; simpl; intro Hn; [reflexivity |].
  destruct (String.eqb k k0) eqn:E.
  - apply String.eqb_eq in E. subst k0. tauto.
  - f_equal. apply IH. tauto.
Qed.
End ObjSet.

Lemma max_step_spec (m y : Q) :
  (m <= max_step m y)%Q /\ (y <= max_step m y)%Q /\ (max_step m y = m \/ max_step m y = y).
Proof.
  unfold max_step. destruct (Qle_bool y m) eqn:E.
  - apply Qle_bool_iff in E. split; [apply Qle_refl |]. split; [exact E | left; reflexivity].
  - assert (Hn : ~ (y <= m)%Q) by (rewrite <- Qle_bool_iff; rewrite E; discriminate).
    apply Qnot_le_lt in Hn. split; [apply Qlt_le_weak; exact Hn |].
    split; [apply Qle_refl | right; reflexivity].
Qed.

Lemma min_step_spec (m y : Q) :
  (min_step m y <= m)%Q /\ (min_step m y <= y)%Q /\ (min_step m y = m \/ min_step m y = y).
Proof.
  unfold min_step. destruct (Qle_bool m y) eqn:E.
  - apply Qle_bool_iff in E. split; [apply Qle_refl |]. split; [exact E | left; reflexivity].
  - assert (Hn : ~ (m <= y)%Q) by (rewrite <- Qle_bool_iff; rewrite E; discriminate).
    apply Qnot_le_lt in Hn. split; [apply Qlt_le_weak; exact Hn |].
    split; [apply Qle_refl | right; reflexivity].
Qed.

Lemma fold_max_spec (r : list Q) (x : Q) :
  In (fold_left max_step r x) (x :: r)
  /\ forall v, In v (x :: r) -> (v <= fold_left max_step r x)%Q.
Proof.
  revert x. induction r as [| y r IH]; intro x; simpl.
  - split; [left; reflexivity |]. intros v [<- | []]. apply Qle_refl.
  - destruct (IH (max_step x y)) as [Hin Hle]. simpl in Hin, Hle.
    destruct (max_step_spec x y) as (Hx & Hy & Hxy).
    split.
    + destruct Hin as [Heq | Hin]; [| tauto].
      rewrite <- Heq. destruct Hxy as [Hxy | Hxy]; rewrite Hxy; simpl; tauto.
    + intros v [<- | [<- | Hv]].
      * eapply Qle_trans; [exact Hx | apply Hle; left; reflexivity].
      * eapply Qle_trans; [exact Hy | apply Hle; left; reflexivity].
      * apply Hle; right; exact Hv.
Qed.

Lemma fold_min_spec (r : list Q) (x : Q) :
  In (fold_left min_step r x) (x :: r)
  /\ forall v, In v (x :: r) -> (fold_left min_step r x <= v)%Q.
Proof.
  revert x. induction r as [| y r IH]; intro x; simpl.
  - split; [left; reflexivity |]. intros v [<- | []]. apply Qle_refl.
  - destruct (IH (min_step x y)) as [Hin Hle]. simpl in Hin, Hle.
    destruct (min_step_spec x y) as (Hx & Hy & Hxy).
    split.
    + destruct Hin as [Heq | Hin]; [| tauto].
      rewrite <- Heq. destruct Hxy as [Hxy | Hxy]; rewrite Hxy; simpl; tauto.
    + intros v [<- | [<- | Hv]].
      * eapply Qle_trans; [apply Hle; left; reflexivity | exact Hx].
      * eapply Qle_trans; [apply Hle; left; reflexivity | exact Hy].
      * apply Hle; right; exact Hv.
Qed.

(** [Number(x.toFixed(2))] is within half a hundredth of [x]. *)
Lemma toFixed2_num_close (x : Q) : (Qabs (toFixed2_num x - x) <= 1 # 200)%Q.
Proof.
  unfold toFixed2_num, toFixed2_digits, toFixed2_neg.
  set (n := Qfloor (Qabs x * 100 + (1 # 2))%Q).
  assert (Hf1 := Qfloor_le (Qabs x * 100 + (1 # 2))%Q).
  assert (Hf2 := Qlt_floor (Qabs x * 100 + (1 # 2))%Q).
  fold n in Hf1, Hf2. rewrite inject_Z_plus in Hf2. change (inject_Z 1) with (1 # 1) in Hf2.
  apply Qabs_Qle_condition.
  destruct (Qle_bool 0 x) eqn:E; simpl.
  - apply Qle_bool_iff in E. rewrite (Qabs_pos x E) in Hf1, Hf2.
    assert (Hn : ((n # 100) == inject_Z n * (1 # 100))%Q) by (unfold Qeq; simpl; lia).
    rewrite Hn. lra.
  - assert (Hlt : (x < 0)%Q).
    { apply Qnot_le_lt. rewrite <- Qle_bool_iff, E. discriminate. }
    rewrite (Qabs_neg x (Qlt_le_weak _ _ Hlt)) in Hf1, Hf2.
    assert (Hn : ((- n # 100) == - inject_Z n * (1 # 100))%Q) by (unfold Qeq; simpl; lia).
    rewrite Hn. lra.
Qed.

(** ** Properties of the altitude profile *)

(** A duplicate-free list of keys with the same elements as [labels] is as
    long as [labels] exactly when [labels] has no duplicates. *)
Lemma keys_count (keys labels : list string) (n : nat) :
  NoDup keys -> (forall k, In k keys <-> In k labels) -> length labels = n ->
  (length keys = n <-> NoDup labels).
Proof.
  intros Hnd Hk Hn.
  assert (Hkl : incl keys labels) by (intros k Hin; apply Hk; exact Hin).
  assert (Hlk : incl labels keys) by (intros k Hin; apply Hk; exact Hin).
  split.
  - intro Hlen. apply (NoDup_incl_NoDup Hnd); [lia | exact Hkl].
  - intro Hndl. assert (H1 := NoDup_incl_length Hndl Hlk).
    assert (H2 := NoDup_incl_length Hnd Hkl). lia.
Qed.

Section Profile.
Variable formatTime : Z -> string.
Variable altitudeAt : Z -> Q.

Lemma profile_fold_keys (s : Z) (l : list nat) (o : list (string * Q)) :
  NoDup (map fst o) ->
  NoDup (map fst (fold_left (altitude_step formatTime altitudeAt s) l o))
  /\ forall k, In k (map fst (fold_left (altitude_step formatTime altitudeAt s) l o))
               <-> In k (map fst o) \/ In k (map (fun i => formatTime (sampleTime s i)) l).
Proof.
  revert o. induction l as [| i l IH]; intros o Hnd; simpl.
  - split; [exact Hnd | tauto].
  - destruct (IH (altitude_step formatTime altitudeAt s o i)) as [Hnd' Hk].
    { apply obj_set_nodup. exact Hnd. }
    split; [exact Hnd' |]. intro k. rewrite Hk.
    unfold altitude_step. rewrite obj_set_keys. intuition congruence.
Qed.

Lemma profile_fold_entries (s : Z) (l : list nat) (o : list (string * Q)) p :
  In p (fold_left (altitude_step formatTime altitudeAt s) l o) ->
  In p o \/ exists i, In i l /\ p = (formatTime (sampleTime s i),
                                     toFixed2_num (altitudeAt (sampleTime s i))).
Proof.
  revert o. induction l as [| i l IH]; intros o H; simpl in H.
  - left. exact H.
  - destruct (IH _ H) as [H' | [j [Hj Hp]]].
    + unfold altitude_step in H'. apply obj_set_entry in H' as [Hp | H'].
      * right. exists i. split; [left; reflexivity | exact Hp].
      * left. exact H'.
    + right. exists j. split; [right; exact Hj | exact Hp].
Qed.

Lemma profile_fold_fresh (s : Z) (l : list nat) (o : list (string * Q)) :
  NoDup (map fst o ++ map (fun i => formatTime (sampleTime s i)) l) ->
  fold_left (altitude_step formatTime altitudeAt s) l o
  = (o ++ map (fun i => (formatTime (sampleTime s i),
                         toFixed2_num (altitudeAt (sampleTime s i)))) l)%list.
Proof.
  revert o. induction l as [| i l IH]; intros o Hnd; simpl.
  - rewrite app_nil_r. reflexivity.
  - unfold altitude_step at 2. rewrite obj_set_fresh.
    + rewrite IH.
      * rewrite <- app_assoc. reflexivity.
      * rewrite map_app, <- app_assoc. exact Hnd.
    + simpl in Hnd. apply NoDup_remove_2 in Hnd.
      intro Hin. apply Hnd. apply in_or_app. left. exact Hin.
Qed.

Lemma profile_keys (s : Z) :
  NoDup (map fst (_getAltituteData formatTime altitudeAt s))
  /\ forall k, In k (map fst (_getAltituteData formatTime altitudeAt s))
               <-> In k (map (fun i => formatTime (sampleTime s i)) (seq 0 48)).
Proof.
  unfold _getAltituteData.
  destruct (profile_fold_keys s (seq 0 48) [] (NoDup_nil _)) as [H1 H2].
  split; [exact H1 |]. intro k. rewrite H2. cbn [map In]. tauto.
Qed.

(** The profile samples the 48 instants
    [dayStart + i * 30 min], [i = 0..47], into an object keyed by each
    sample's time label.  Its keys are distinct and are exactly the labels
    of the samples, so it has 48 entries exactly when the 48 labels are
    pairwise distinct, and it is then the list of the 48 samples in order. *)
Theorem altitude_profile_samples (dayStart : Z) :
  map (sampleTime dayStart) (seq 0 48)
    = map (fun i => dayStart + Z.of_nat i * 1800000) (seq 0 48)
  /\ NoDup (map fst (_getAltituteData formatTime altitudeAt dayStart))
  /\ (forall k, In k (map fst (_getAltituteData formatTime altitudeAt dayStart))
                <-> In k (map (fun i => formatTime (sampleTime dayStart i)) (seq 0 48)))
  /\ (length (_getAltituteData formatTime altitudeAt dayStart) = 48%nat
      <-> NoDup (map (fun i => formatTime (sampleTime dayStart i)) (seq 0 48)))
  /\ (NoDup (map (fun i => formatTime (sampleTime dayStart i)) (seq 0 48)) ->
      _getAltituteData formatTime altitudeAt dayStart
      = map (fun i => (formatTime (sampleTime dayStart i),
                       toFixed2_num (altitudeAt (sampleTime dayStart i)))) (seq 0 48)).
Proof.
  destruct (profile_keys dayStart) as [Hnd Hk].
  split; [apply map_ext; intro i; unfold sampleTime; lia |].
  split; [exact Hnd |]. split; [exact Hk |]. split.
  - rewrite <- (length_map fst (_getAltituteData formatTime altitudeAt dayStart)).
    apply keys_count; [exact Hnd | exact Hk |].
    rewrite length_map, length_seq. reflexivity.
  - intro Hndl. unfold _getAltituteData.
    rewrite (profile_fold_fresh dayStart (seq 0 48) []); [reflexivity | exact Hndl].
Qed.

(** C6: every recorded altitude is [Number(altitudeDegrees.toFixed(2))] of a
    sample (within half a hundredth of it), and the chart bounds are
    [ceil(max + 10)] and [min - 10] of the recorded altitudes. *)
Theorem todayData_altitude_bounds (dayStart : Z) :
  (forall k v, In (k, v) (altitude (todayData formatTime altitudeAt dayStart)) ->
     exists i, (i < 48)%nat /\ k = formatTime (sampleTime dayStart i)
       /\ v = toFixed2_num (altitudeAt (sampleTime dayStart i))
       /\ (Qabs (v - altitudeAt (sampleTime dayStart i)) <= 1 # 200)%Q)
  /\ altitudeData (todayData formatTime altitudeAt dayStart)
     = map snd (altitude (todayData formatTime altitudeAt dayStart))
  /\ exists mx mn,
       In mx (altitudeData (todayData formatTime altitudeAt dayStart))
       /\ (forall v, In v (altitudeData (todayData formatTime altitudeAt dayStart)) -> (v <= mx)%Q)
       /\ In mn (altitudeData (todayData formatTime altitudeAt dayStart))
       /\ (forall v, In v (altitudeData (todayData formatTime altitudeAt dayStart)) -> (mn <= v)%Q)
       /\ sugestedYMax (minMaxY (todayData formatTime altitudeAt dayStart)) = Some (Math_ceil (mx + 10)%Q)
       /\ sugestedYMin (minMaxY (todayData formatTime altitudeAt dayStart)) = Some (mn - 10)%Q.
Proof.
  split.
  - intros k v Hin. cbn [todayData altitude] in Hin. unfold _getAltituteData in Hin.
    apply profile_fold_entries in Hin as [[] | [i [Hi Hp]]].
    apply in_seq in Hi. injection Hp as -> ->.
    exists i. split; [lia |]. split; [reflexivity |]. split; [reflexivity |].
    apply toFixed2_num_close.
  - split; [reflexivity |].
    destruct (profile_keys dayStart) as [_ Hk].
    assert (H0 := proj2 (Hk (formatTime (sampleTime dayStart 0))) (or_introl eq_refl)).
    unfold todayData. cbn [altitudeData minMaxY sugestedYMax sugestedYMin].
    destruct (_getAltituteData formatTime altitudeAt dayStart) as [| [k0 v0] r].
    + destruct H0.
    + cbn [map Math_max_list Math_min_list option_map].
      destruct (fold_max_spec (map snd r) v0) as [Hmx Hmxle].
      destruct (fold_min_spec (map snd r) v0) as [Hmn Hmnle].
      exists (fold_left max_step (map snd r) v0), (fold_left min_step (map snd r) v0).
      repeat split; assumption.
Qed.
End Profile.

(** ** Properties of the snapshot *)

Section Snapshot.
Variable lang : string.
Variable useMiles : bool.
Variable localize : string -> string -> string -> string -> string.
Variable formatNumber : string -> string.
Variable formatTime : Z -> string.
Variable formatRelativeTime : Z -> string * option string.
Variable toLocaleDateString : Z -> string.

(** C7: the transit item is absent exactly when SunCalc gives no [highest]
    time, and is the "moonHigh" time item when it does. *)
Theorem moonHighest_optional (d : IMoonData) (t : IMoonTimes) :
  (moonHighest (moonData lang useMiles localize formatNumber formatTime
                 formatRelativeTime toLocaleDateString d t) = None
   <-> highest t = None)
  /\ forall h, highest t = Some h ->
     moonHighest (moonData lang useMiles localize formatNumber formatTime
                    formatRelativeTime toLocaleDateString d t)
     = Some (createMoonTime lang localize formatTime formatRelativeTime "moonHigh" h).
Proof.
  unfold moonData. cbn [moonHighest].
  destruct (highest t) as [h |]; split.
  - split; discriminate.
  - intros h' Hh. injection Hh as ->. reflexivity.
  - split; reflexivity.
  - intros h' Hh. discriminate Hh.
Qed.

(** C8 (amended): with a non-empty unit the item's value is the value, a
    separator and the unit; the separator is a regular space (U+0020) before
    "%" exactly for the languages cs, de, fi, fr, sk, sv and empty for the
    others, empty before "°", and a regular space before any other unit. *)
Theorem createItem_unit_separator (lbl v u : string) (sv : option string)
  (Hu : u <> "") :
  exists sep,
    value (createItem lang localize lbl v (Some u) sv) = v ++ sep ++ u
    /\ (u = "%" -> (sep = " " /\ In lang listed_langs)
                   \/ (sep = "" /\ ~ In lang listed_langs))
    /\ (u = "°" -> sep = "")
    /\ (u <> "%" -> u <> "°" -> sep = " ").
Proof.
  exists (blackBeforeUnit lang u). split.
  - unfold createItem. cbn [value truthy or_empty].
    destruct (String.eqb u "") eqn:E; [apply String.eqb_eq in E; contradiction |].
    reflexivity.
  - split; [| split].
    + intros ->. unfold blackBeforeUnit. cbn -[existsb listed_langs].
      destruct (existsb (String.eqb lang) listed_langs) eqn:E.
      * left. split; [reflexivity |].
        apply existsb_exists in E as [x [Hx Heq]].
        apply String.eqb_eq in Heq. subst x. exact Hx.
      * right. split; [reflexivity |]. intro Hin.
        assert (Hex : existsb (String.eqb lang) listed_langs = true).
        { apply existsb_exists. exists lang. split; [exact Hin | apply String.eqb_refl]. }
        rewrite Hex in E. discriminate E.
    + intros ->. reflexivity.
    + intros H1 H2. unfold blackBeforeUnit.
      destruct (String.eqb u "°") eqn:E1; [apply String.eqb_eq in E1; contradiction |].
      destruct (String.eqb u "%") eqn:E2; [apply String.eqb_eq in E2; contradiction |].
      reflexivity.
Qed.

(** C9 (from the spec's description of [convertKmToMiles]): kilometres are
    multiplied by 0.621371 when [useMiles] holds and kept otherwise; the
    distance item rounds to 2 decimals only when formatting; 384400 km is
    within one mile of 238855 miles. *)
Theorem convertKmToMiles_spec (km : Q) (d : IMoonData) (t : IMoonTimes) :
  convertKmToMiles km true = (km * (621371 # 1000000))%Q
  /\ convertKmToMiles km false = km
  /\ value (distanceItem (moonData lang useMiles localize formatNumber formatTime
                            formatRelativeTime toLocaleDateString d t))
     = formatNumber (toFixed2 (convertKmToMiles (distance d) useMiles))
       ++ " " ++ (if useMiles then "mi" else "km")
  /\ (Qabs (convertKmToMiles 384400 true - 238855) <= 1)%Q
  /\ toFixed2 (convertKmToMiles 384400 true) = "238855.01".
Proof.
  split; [reflexivity |]. split; [reflexivity |]. split.
  - destruct useMiles; reflexivity.
  - split; [| vm_compute; reflexivity].
    apply Qabs_Qle_condition. unfold convertKmToMiles. split; lra.
Qed.
End Snapshot.

(** ** Counterexamples *)

(** C1 (code bug): on 2024-11-03 in New York the wall clock shows 01:00
    and 01:30 twice.  The samples at 05:00 and 06:00 UTC share the label
    "01:00", those at 05:30 and 06:30 UTC share "01:30", and whatever the
    altitudes, the profile of that day has 46 entries, not 48: each repeated
    label holds the altitude of the later sample, and the earlier one is lost. *)
Lemma altitude_profile_fall_back_collision (altitudeAt : Z -> Q) :
  let p := _getAltituteData (formatedTime24 new_york_fall_2024) altitudeAt fall_back_midnight in
  formatedTime24 new_york_fall_2024 (sampleTime fall_back_midnight 2) = "01:00"
  /\ formatedTime24 new_york_fall_2024 (sampleTime fall_back_midnight 4) = "01:00"
  /\ formatedTime24 new_york_fall_2024 (sampleTime fall_back_midnight 3) = "01:30"
  /\ formatedTime24 new_york_fall_2024 (sampleTime fall_back_midnight 5) = "01:30"
  /\ length p = 46%nat
  /\ obj_get p "01:00" = Some (toFixed2_num (altitudeAt (sampleTime fall_back_midnight 4)))
  /\ obj_get p "01:30" = Some (toFixed2_num (altitudeAt (sampleTime fall_back_midnight 5))).
Proof.
  intro p. repeat split; vm_compute; reflexivity.
Qed.

(** C8 (counterexample): for "fr" the separator before "%" is a regular space,
    not a hair space. *)
Lemma blackBeforeUnit_fr_regular_space :
  value (createItem "fr" (fun _ _ _ _ => "") "illumination" "50" (Some "%") None) = "50 %"
  /\ value (createItem "fr" (fun _ _ _ _ => "") "illumination" "50" (Some "%") None)
     <> "50" ++ hairline_space ++ "%".
Proof.
  split; [reflexivity |]. vm_compute. discriminate.
Qed.

(** ** Witnesses *)

Lemma convertCardinal_compass_witness :
  (0 <= 90 <= 360)%Q /\ _convertCardinal 90 = Some "E"
  /\ js_index compass8 (Math_round (90 / 45)%Q mod 8) = Some "E".
Proof.
  split; [lra |].
  destruct (convertCardinal_compass 90 ltac:(lra)) as [H _].
  split; [reflexivity | rewrite <- H; reflexivity].
Defined.


Lemma convertCardinal_outside_table_witness :
  (765 # 2 <= 400)%Q /\ _convertCardinal 400 = None.
Proof.
  split; [lra |].
  destruct (convertCardinal_outside_table 400 ltac:(left; lra)) as (_ & _ & _ & H).
  exact H.
Defined.

(** A half-way phase, with 31 image names. *)
Lemma phaseIndex_in_range_witness :
  let images := map (fun i => "moon" ++ decimal (Z.of_nat i)) (seq 0 31) in
  let d := {| distance := 384400; azimuthDegrees := 0; altitudeDegrees := 0;
              fraction := 1; phaseValue := 1 # 2; nextFullMoon := 0; nextNewMoon := 0;
              zenithAngle := 0; parallacticAngle := 0 |} in
  (0 <= phaseValue d < 1)%Q /\ length images = 31%nat
  /\ phaseIndex d = 15 /\ moonPic (moonImage images d) = Some "moon15".
Proof.
  intros images d.
  assert (Hpv : (0 <= phaseValue d < 1)%Q) by (simpl; lra).
  assert (Hlen : length images = 31%nat) by reflexivity.
  destruct (phaseIndex_in_range images d Hpv Hlen) as (_ & _ & pic & Hpic & _).
  split; [exact Hpv |]. split; [exact Hlen |]. split; [reflexivity |].
  rewrite Hpic. vm_compute in Hpic. symmetry. exact Hpic.
Defined.

(** With UTC labels the 48 labels are distinct, so the profile is the list of
    the 48 samples. *)
Lemma altitude_profile_samples_witness :
  NoDup (map (fun i => formatedTime24 (fun _ => 0) (sampleTime 0 i)) (seq 0 48))
  /\ _getAltituteData (formatedTime24 (fun _ => 0)) (fun _ => 1%Q) 0
     = map (fun i => (formatedTime24 (fun _ => 0) (sampleTime 0 i), toFixed2_num 1)) (seq 0 48).
Proof.
  destruct (altitude_profile_samples (formatedTime24 (fun _ => 0)) (fun _ => 1%Q) 0)
    as (_ & _ & _ & Hiff & Hmap).
  assert (Hl : length (_getAltituteData (formatedTime24 (fun _ => 0)) (fun _ => 1%Q) 0) = 48%nat)
    by (vm_compute; reflexivity).
  assert (Hnd := proj1 Hiff Hl).
  split; [exact Hnd | exact (Hmap Hnd)].
Defined.

Lemma todayData_altitude_bounds_witness :
  sugestedYMax (minMaxY (todayData (formatedTime24 (fun _ => 0)) (fun _ => 1%Q) 0)) = Some 11
  /\ exists mx mn,
       In mx (altitudeData (todayData (formatedTime24 (fun _ => 0)) (fun _ => 1%Q) 0))
       /\ sugestedYMax (minMaxY (todayData (formatedTime24 (fun _ => 0)) (fun _ => 1%Q) 0))
          = Some (Math_ceil (mx + 10)%Q)
       /\ sugestedYMin (minMaxY (todayData (formatedTime24 (fun _ => 0)) (fun _ => 1%Q) 0))
          = Some (mn - 10)%Q.
Proof.
  split; [vm_compute; reflexivity |].
  destruct (todayData_altitude_bounds (formatedTime24 (fun _ => 0)) (fun _ => 1%Q) 0)
    as (_ & _ & mx & mn & Hmx & _ & _ & _ & Hmax & Hmin).
  exists mx, mn. split; [exact Hmx |]. split; [exact Hmax | exact Hmin].
Defined.

Lemma moonHighest_optional_witness :
  let t := {| rise := 0; set := 43200000; highest := None |} in
  moonHighest (moonData "en" false (fun _ _ _ _ => "") (fun s => s) (fun _ => "")
                 (fun _ => ("", None)) (fun _ => "") steep_sample t) = None.
Proof.
  intro t.
  destruct (moonHighest_optional "en" false (fun _ _ _ _ => "") (fun s => s) (fun _ => "")
              (fun _ => ("", None)) (fun _ => "") steep_sample t) as [Hiff _].
  apply Hiff. reflexivity.
Defined.

Lemma createItem_unit_separator_witness :
  "%" <> "" /\ value (createItem "fr" (fun _ _ _ _ => "") "illumination" "50" (Some "%") None)
             = "50" ++ " " ++ "%".
Proof.
  assert (Hu : "%" <> "") by discriminate.
  split; [exact Hu |].
  destruct (createItem_unit_separator "fr" (fun _ _ _ _ => "") "illumination" "50" "%" None Hu)
    as (sep & Hv & Hpct & _).
  rewrite Hv. destruct (Hpct eq_refl) as [[-> _] | [_ Hn]]; [reflexivity |].
  exfalso. apply Hn. simpl. tauto.
Defined.

(** ** Number(x.toFixed(2)) *)

Lemma list_ascii_of_string_app (s1 s2 : string) :
  list_ascii_of_string (s1 ++ s2) = (list_ascii_of_string s1 ++ list_ascii_of_string s2)%list.
Proof. induction s1 as [| c s1 IH]; simpl; [reflexivity | rewrite IH; reflexivity]. Qed.

Lemma number_step_None (l : list Ascii.ascii) : fold_left number_step l None = None.
Proof. induction l as [| c l IH]; simpl; [reflexivity | exact IH]. Qed.

Lemma digit_char_value (d : Z) : 0 <= d < 10 ->
  Ascii.eqb (digit_char d) "."%char = false /\ digit_value (digit_char d) = Some d.
Proof.
  intro Hd. unfold digit_char, digit_value.
  rewrite Ascii.nat_ascii_embedding by lia.
  split.
  - destruct (Ascii.eqb _ _) eqn:E; [| reflexivity].
    apply Ascii.eqb_eq in E. apply (f_equal Ascii.nat_of_ascii) in E.
    rewrite Ascii.nat_ascii_embedding in E by lia. change (Ascii.nat_of_ascii "."%char) with 46%nat in E. lia.
  - replace (Z.of_nat (48 + Z.to_nat d) - 48) with d by lia.
    replace ((0 <=? d) && (d <? 10))%bool with true by lia. reflexivity.
Qed.

Lemma number_step_digit (d num scale : Z) (seen : bool) : 0 <= d < 10 ->
  number_step (Some (num, scale, seen)) (digit_char d)
  = Some (num * 10 + d, if seen then scale * 10 else scale, seen).
Proof.
  intro Hd. destruct (digit_char_value d Hd) as [E1 E2].
  unfold number_step. rewrite E1, E2. reflexivity.
Qed.

(** Reading the digits that [decimal_aux] prepends appends [n] to the integer
    read so far. *)
Lemma decimal_aux_read (f : nat) (n : Z) (acc : string) :
  0 <= n < 10 ^ Z.of_nat f ->
  exists L, 0 <= L /\ forall num scale,
    fold_left number_step (list_ascii_of_string (decimal_aux f n acc)) (Some (num, scale, false))
    = fold_left number_step (list_ascii_of_string acc) (Some (num * 10 ^ L + n, scale, false)).
Proof.
  revert n acc. induction f as [| f IH]; intros n acc Hn.
  - exists 0. split; [lia |]. intros num scale. simpl in Hn.
    replace n with 0 by lia. simpl. rewrite Z.mul_1_r, Z.add_0_r. reflexivity.
  - simpl decimal_aux.
    assert (Hm := Z.mod_pos_bound n 10 ltac:(lia)).
    destruct (n <? 10) eqn:E.
    + exists 1. split; [lia |]. intros num scale. cbn [list_ascii_of_string fold_left].
      rewrite number_step_digit by lia. rewrite Z.mod_small by lia. reflexivity.
    + rewrite Nat2Z.inj_succ, Z.pow_succ_r in Hn by lia.
      destruct (IH (n / 10) (String (digit_char (n mod 10)) acc)) as [L [HL HIH]].
      { split; [apply Z.div_pos; lia | apply Z.div_lt_upper_bound; lia]. }
      exists (L + 1). split; [lia |]. intros num scale.
      rewrite HIH. cbn [list_ascii_of_string fold_left]. rewrite number_step_digit by lia.
      assert (Hdm := Z.div_mod n 10 ltac:(lia)).
      assert (Hring : forall P q r, n = 10 * q + r -> (num * P + q) * 10 + r = num * (P * 10) + n)
        by (intros P q r Hqr; rewrite Hqr; ring).
      rewrite Z.pow_add_r, Z.pow_1_r by lia.
      rewrite (Hring (10 ^ L) (n / 10) (n mod 10) Hdm). reflexivity.
Qed.

Lemma decimal_read (n : Z) : 0 <= n ->
  exists L, 0 <= L /\ forall num scale rest,
    fold_left number_step (list_ascii_of_string (decimal n ++ rest)) (Some (num, scale, false))
    = fold_left number_step (list_ascii_of_string rest) (Some (num * 10 ^ L + n, scale, false)).
Proof.
  intro Hn. unfold decimal.
  assert (Hlog := Z.log2_spec (n + 1) ltac:(lia)).
  assert (Hlog0 := Z.log2_nonneg (n + 1)).
  assert (Hf : 0 <= n < 10 ^ Z.of_nat (S (Z.to_nat (Z.log2 (n + 1))))).
  { split; [exact Hn |]. rewrite Nat2Z.inj_succ, Z2Nat.id by lia.
    assert (H2 : 2 ^ Z.succ (Z.log2 (n + 1)) <= 10 ^ Z.succ (Z.log2 (n + 1)))
      by (apply Z.pow_le_mono_l; lia).
    lia. }
  destruct (decimal_aux_read _ n "" Hf) as [L [HL H]].
  exists L. split; [exact HL |]. intros num scale rest.
  rewrite list_ascii_of_string_app. rewrite fold_left_app.
  rewrite H. reflexivity.
Qed.

Lemma Number_fixed_unsigned (s : string) (v : Q) :
  Number_unsigned s = Some v -> Number_fixed s = Some v.
Proof.
  intro H. destruct s as [| c r]; [exact H |]. simpl.
  destruct (Ascii.eqb c "-"%char) eqn:E; [| exact H].
  apply Ascii.eqb_eq in E. subst c.
  unfold Number_unsigned in H. simpl in H. rewrite number_step_None in H. discriminate H.
Qed.

Lemma Number_unsigned_fixed2 (n : Z) : 0 <= n ->
  Number_unsigned (decimal (n / 100) ++ "."
    ++ String (digit_char ((n mod 100) / 10)) (String (digit_char (n mod 10)) ""))
  = Some (n # 100)%Q.
Proof.
  intro Hn. unfold Number_unsigned.
  assert (Hq : 0 <= n / 100) by (apply Z.div_pos; lia).
  destruct (decimal_read (n / 100) Hq) as [L [HL H]].
  rewrite H. cbn [list_ascii_of_string fold_left append].
  change (number_step (Some (0 * 10 ^ L + n / 100, 1, false)) "."%char)
    with (Some (0 * 10 ^ L + n / 100, 1, true)).
  assert (Hm100 := Z.mod_pos_bound n 100 ltac:(lia)).
  assert (Hm10 := Z.mod_pos_bound n 10 ltac:(lia)).
  rewrite number_step_digit by (split; [apply Z.div_pos | apply Z.div_lt_upper_bound]; lia).
  rewrite number_step_digit by lia.
  assert (Hd100 := Z.div_mod n 100 ltac:(lia)).
  assert (Hd10 := Z.div_mod (n mod 100) 10 ltac:(lia)).
  assert (Hn10 := Z.div_mod n 10 ltac:(lia)).
  assert (Hb := Z.mod_pos_bound (n mod 100) 10 ltac:(lia)).
  replace (((0 * 10 ^ L + n / 100) * 10 + n mod 100 / 10) * 10 + n mod 10) with n by lia.
  reflexivity.
Qed.

(** ** More properties of the adapter *)

(** [Number(x.toFixed(2))] is the rounded value [toFixed2_num] stands for, and
    it lies within half a hundredth of [x]. *)
Theorem Number_toFixed2_roundtrip (x : Q) :
  Number_fixed (toFixed2 x) = Some (toFixed2_num x)
  /\ exists v, Number_fixed (toFixed2 x) = Some v /\ (Qabs (v - x) <= 1 # 200)%Q.
Proof.
  assert (Hn : 0 <= toFixed2_digits x).
  { unfold toFixed2_digits. rewrite <- (Qfloor_Z 0). apply Qfloor_resp_le.
    assert (Ha := Qabs_nonneg x). change (inject_Z 0) with (0 # 1). lra. }
  assert (H1 : Number_fixed (toFixed2 x) = Some (toFixed2_num x)).
  { unfold toFixed2, toFixed2_num. destruct (toFixed2_neg x).
    - match goal with |- Number_fixed ("-" ++ ?s) = _ =>
        change (Number_fixed ("-" ++ s)) with (option_map Qopp (Number_unsigned s)) end.
      rewrite Number_unsigned_fixed2 by exact Hn. reflexivity.
    - match goal with |- Number_fixed ("" ++ ?s) = _ =>
        change (Number_fixed ("" ++ s)) with (Number_fixed s) end.
      apply Number_fixed_unsigned. apply Number_unsigned_fixed2. exact Hn. }
  split; [exact H1 |]. exists (toFixed2_num x). split; [exact H1 | apply toFixed2_num_close].
Qed.

Lemma append_empty_r (s : string) : s ++ "" = s.
Proof. induction s as [| c s IH]; simpl; [reflexivity | rewrite IH; reflexivity]. Qed.

Lemma truthy_or_empty (s : string) :
  (if truthy (Some s) then or_empty (Some s) else "") = s.
Proof.
  cbn [truthy or_empty]. destruct (String.eqb s "") eqn:E; [| reflexivity].
  apply String.eqb_eq in E. symmetry. exact E.
Qed.

Section Items.
Variable lang : string.
Variable useMiles : bool.
Variable localize : string -> string -> string -> string -> string.
Variable formatNumber : string -> string.
Variable formatTime : Z -> string.
Variable formatRelativeTime : Z -> string * option string.
Variable toLocaleDateString : Z -> string.

(** A time item's value is the formatted time alone, with no separator or
    unit whatever the language; its second value is the localized relative
    time, with the relative value substituted for "{0}" when there is one. *)
Theorem createMoonTime_value (key : string) (time : Z) :
  label (createMoonTime lang localize formatTime formatRelativeTime key time)
    = localize ("card." ++ key) lang "" ""
  /\ value (createMoonTime lang localize formatTime formatRelativeTime key time)
    = formatTime time
  /\ secondValue (createMoonTime lang localize formatTime formatRelativeTime key time)
    = match formatRelativeTime time with
      | (k, Some v) => if String.eqb v "" then localize k lang "" "" else localize k lang "{0}" v
      | (k, None) => localize k lang "" ""
      end.
Proof.
  unfold createMoonTime, createItem. cbn [label value secondValue].
  split; [reflexivity |]. split; [apply append_empty_r |].
  rewrite truthy_or_empty. unfold localizeRelativeTime, localize1.
  destruct (formatRelativeTime time) as [k [v |]]; cbn [truthy or_empty]; [| reflexivity].
  destruct (String.eqb v ""); reflexivity.
Qed.
(** The units of the snapshot: azimuth and altitude end in "°" with no space;
    the illumination ends in "%", after a space only for cs, de, fi, fr, sk,
    sv; the rise and set items are the formatted times; the next full and new
    moon items are the localized dates with no second value. *)
Theorem moonData_units (d : IMoonData) (t : IMoonTimes) :
  let md := moonData lang useMiles localize formatNumber formatTime
              formatRelativeTime toLocaleDateString d t in
  value (azimuthDegress md) = formatNumber (toFixed2 (azimuthDegrees d)) ++ "°"
  /\ value (altitudeDegreesItem md) = formatNumber (toFixed2 (altitudeDegrees d)) ++ "°"
  /\ value (moonFraction md)
     = formatNumber (toFixed2 (fraction d * 100)%Q)
       ++ (if existsb (String.eqb lang) listed_langs then " " else "") ++ "%"
  /\ value (moonRise md) = formatTime (rise t)
  /\ value (moonSet md) = formatTime (set t)
  /\ nextFullMoonItem md = {| label := localize "card.fullMoon" lang "" "";
                              value := toLocaleDateString (nextFullMoon d);
                              secondValue := "" |}
  /\ nextNewMoonItem md = {| label := localize "card.newMoon" lang "" "";
                             value := toLocaleDateString (nextNewMoon d);
                             secondValue := "" |}.
Proof.
  intro md. unfold md, moonData, createMoonTime, createItem, localize1.
  cbn [value label secondValue azimuthDegress altitudeDegreesItem moonFraction
       moonRise moonSet nextFullMoonItem nextNewMoonItem truthy or_empty].
  repeat split; try reflexivity; try apply append_empty_r.
  - f_equal; apply append_empty_r.
  - f_equal; apply append_empty_r.
Qed.

(** The moon age carries the localized "days" word after a space; when that
    word is localized to [""] the age is shown bare. *)
Theorem moonData_age_unit (d : IMoonData) (t : IMoonTimes) :
  let md := moonData lang useMiles localize formatNumber formatTime
              formatRelativeTime toLocaleDateString d t in
  let days := localize "card.relativeTime.days" lang "" "" in
  let age := formatNumber (toFixed2 (phaseValue d * (2953 # 100))%Q) in
  (days = "" -> value (moonAge md) = age)
  /\ (days <> "" -> days <> "%" -> days <> "°" -> value (moonAge md) = age ++ " " ++ days).
Proof.
  intros md days age. unfold md, moonData, createItem, localize1. cbn [value moonAge truthy or_empty].
  fold days. fold age. split.
  - intros ->. apply append_empty_r.
  - intros H1 H2 H3. unfold blackBeforeUnit.
    destruct (String.eqb days "") eqn:E0; [apply String.eqb_eq in E0; contradiction |].
    destruct (String.eqb days "°") eqn:E1; [apply String.eqb_eq in E1; contradiction |].
    destruct (String.eqb days "%") eqn:E2; [apply String.eqb_eq in E2; contradiction |].
    reflexivity.
Qed.


(** The direction item is the azimuth rounded to an integer followed by "°";
    its second value is a compass point for azimuths in [0, 360], and is empty
    for azimuths of 382.5 and above or below -22.5, where the compass lookup
    is [undefined]. *)
Theorem todayDataItem_direction (d : IMoonData) (t : IMoonTimes) :
  let it := azimuthCardinal (todayDataItem lang useMiles localize formatNumber formatTime
                               formatRelativeTime toLocaleDateString d t) in
  value it = formatNumber (toFixed0 (azimuthDegrees d)) ++ "°"
  /\ ((0 <= azimuthDegrees d <= 360)%Q -> exists p, In p compass8 /\ secondValue it = p)
  /\ ((765 # 2 <= azimuthDegrees d)%Q \/ (azimuthDegrees d < - (45 # 2))%Q ->
      secondValue it = "").
Proof.
  intro it. unfold it, todayDataItem, createItem. cbn [value secondValue azimuthCardinal].
  split; [reflexivity |]. split.
  - intro H.
    assert (Hb : 0 <= Math_round (azimuthDegrees d / 45)%Q <= 8).
    { apply Math_round_bounds; change (inject_Z 0) with (0 # 1);
        change (inject_Z 8) with (8 # 1); div45; lra. }
    unfold _convertCardinal.
    remember (Math_round (azimuthDegrees d / 45)%Q) as k eqn:Hk. clear Hk.
    enum_index k 0 8; eexists; (split; [| reflexivity]); simpl; tauto.
  - intro H. unfold _convertCardinal, js_index. destruct H as [H | H].
    + assert (Hr : 9 <= Math_round (azimuthDegrees d / 45)%Q).
      { apply Math_round_ge. change (inject_Z 9) with (9 # 1). div45. lra. }
      replace (Math_round (azimuthDegrees d / 45)%Q <? 0) with false by lia.
      rewrite (proj2 (nth_error_None cardinalPoints _)) by (simpl; lia). reflexivity.
    + assert (Hr := Math_round_neg (azimuthDegrees d / 45)%Q ltac:(div45; lra)).
      replace (Math_round (azimuthDegrees d / 45)%Q <? 0) with true by lia. reflexivity.
Qed.
End Items.

(** [_getRiseSetData] gives [NaN] (here [None]) for a missing time, and
    otherwise the index of the local half-hour slot of the time, in [0, 47],
    with the altitude at that time. *)
Theorem getRiseSetData_slot (altitudeAt : Z -> Q) (localOffset : Z -> Z)
  (todayMoonTimes : string -> option Z) (timeKey : string) :
  (todayMoonTimes timeKey = None ->
     _getRiseSetData altitudeAt localOffset todayMoonTimes timeKey = None)
  /\ forall time, todayMoonTimes timeKey = Some time ->
     exists r, _getRiseSetData altitudeAt localOffset todayMoonTimes timeKey = Some r
       /\ riseSetIndex r = (60 * getHours localOffset time + getMinutes localOffset time) / 30
       /\ 0 <= riseSetIndex r <= 47
       /\ riseSetAltitude r = altitudeAt time.
Proof.
  unfold _getRiseSetData. split; [intros ->; reflexivity |].
  intros time ->. eexists. split; [reflexivity |]. cbn [riseSetIndex riseSetAltitude].
  assert (Hh := Z.mod_pos_bound ((time + localOffset time) / 3600000) 24 ltac:(lia)).
  assert (Hm := Z.mod_pos_bound ((time + localOffset time) / 60000) 60 ltac:(lia)).
  fold (getHours localOffset time) in Hh. fold (getMinutes localOffset time) in Hm.
  assert (Hi : Math_floor ((inject_Z (getHours localOffset time)
                            + inject_Z (getMinutes localOffset time) / 60) * 2)%Q
               = (60 * getHours localOffset time + getMinutes localOffset time) / 30).
  { rewrite Zdiv_Qdiv. unfold Math_floor. apply Qfloor_comp.
    rewrite inject_Z_plus, inject_Z_mult. field. }
  rewrite Hi. split; [reflexivity |]. split; [| reflexivity].
  split; [apply Z.div_pos; lia |]. apply Z.lt_succ_r. apply Z.div_lt_upper_bound; lia.
Qed.

Lemma obj_get_set_same {V : Type} (o : list (string * V)) k v : obj_get (obj_set o k v) k = Some v.
Proof.
  induction o as [| [k' v'] o IH]; simpl; [rewrite String.eqb_refl; reflexivity |].
  destruct (String.eqb k k') eqn:E; simpl; [rewrite String.eqb_refl; reflexivity |].
  rewrite E. exact IH.
Qed.

Lemma obj_get_set_other {V : Type} (o : list (string * V)) k v k2 :
  k2 <> k -> obj_get (obj_set o k v) k2 = obj_get o k2.
Proof.
  intro Hne. induction o as [| [k' v'] o IH]; simpl.
  - destruct (String.eqb k2 k) eqn:E; [apply String.eqb_eq in E; contradiction | reflexivity].
  - destruct (String.eqb k k') eqn:E; simpl.
    + apply String.eqb_eq in E. subst k'.
      destruct (String.eqb k2 k) eqn:E2; [apply String.eqb_eq in E2; contradiction | reflexivity].
    + destruct (String.eqb k2 k'); [reflexivity | exact IH].
Qed.

Lemma obj_set_set_same {V : Type} (o : list (string * V)) k v :
  obj_set (obj_set o k v) k v = obj_set o k v.
Proof.
  induction o as [| [k' v'] o IH]; simpl; [rewrite String.eqb_refl; reflexivity |].
  destruct (String.eqb k k') eqn:E; simpl; [rewrite String.eqb_refl; reflexivity |].
  rewrite E, IH. reflexivity.
Qed.

Lemma find_app {A : Type} (f : A -> bool) (l1 l2 : list A) :
  find f (l1 ++ l2) = match find f l1 with Some x => Some x | None => find f l2 end.
Proof.
  induction l1 as [| x l1 IH]; simpl; [reflexivity |].
  destruct (f x); [reflexivity | exact IH].
Qed.

Lemma profile_fold_get (formatTime : Z -> string) (altitudeAt : Z -> Q) (s : Z)
  (l : list nat) (o : list (string * Q)) (k : string) :
  obj_get (fold_left (altitude_step formatTime altitudeAt s) l o) k
  = match find (fun i => String.eqb (formatTime (sampleTime s i)) k) (rev l) with
    | Some i => Some (toFixed2_num (altitudeAt (sampleTime s i)))
    | None => obj_get o k
    end.
Proof.
  revert o. induction l as [| i l IH]; intro o; simpl; [reflexivity |].
  rewrite IH, find_app. destruct (find _ (rev l)) as [j |]; [reflexivity |].
  simpl. unfold altitude_step.
  destruct (String.eqb (formatTime (sampleTime s i)) k) eqn:E.
  - apply String.eqb_eq in E. rewrite E. apply obj_get_set_same.
  - apply obj_get_set_other. intro Hk. subst k. rewrite String.eqb_refl in E. discriminate.
Qed.

(** Reading a label of the altitude profile gives the rounded altitude of the
    last of the 48 samples with that label (a later sample overwrites an
    earlier one), and [undefined] for a label no sample has. *)
Theorem altitude_profile_last_wins (formatTime : Z -> string) (altitudeAt : Z -> Q)
  (dayStart : Z) (k : string) :
  obj_get (_getAltituteData formatTime altitudeAt dayStart) k
  = match find (fun i => String.eqb (formatTime (sampleTime dayStart i)) k) (rev (seq 0 48)) with
    | Some i => Some (toFixed2_num (altitudeAt (sampleTime dayStart i)))
    | None => None
    end.
Proof.
  unfold _getAltituteData. rewrite profile_fold_get. reflexivity.
Qed.

(** [setMoonImagesToStorage] stores under "moonImages" the images joined by
    commas (the string conversion of the array, not JSON), leaves every other
    key of the storage as it was, and a second call changes nothing more. *)
Theorem setMoonImagesToStorage_spec (MOON_IMAGES : list string)
  (localStorage : list (string * string)) :
  obj_get (setMoonImagesToStorage MOON_IMAGES localStorage) "moonImages"
    = Some (String.concat "," MOON_IMAGES)
  /\ (forall k, k <> "moonImages" ->
       obj_get (setMoonImagesToStorage MOON_IMAGES localStorage) k = obj_get localStorage k)
  /\ setMoonImagesToStorage MOON_IMAGES (setMoonImagesToStorage MOON_IMAGES localStorage)
     = setMoonImagesToStorage MOON_IMAGES localStorage.
Proof.
  unfold setMoonImagesToStorage. split; [apply obj_get_set_same |].
  split; [intros k Hk; apply obj_get_set_other; exact Hk | apply obj_set_set_same].
Qed.

(** The phase index is in [0, 30] for every non-negative phase value; for a
    phase value in [-30/31, 0) it is negative (JS [%] keeps the sign) and no
    image is selected. *)
Theorem phaseIndex_sign (MOON_IMAGES : list string) (d : IMoonData) :
  ((0 <= phaseValue d)%Q -> 0 <= phaseIndex d <= 30)
  /\ ((- (30 # 31) <= phaseValue d < 0)%Q ->
      -30 <= phaseIndex d <= -1 /\ moonPic (moonImage MOON_IMAGES d) = None).
Proof.
  split; intro H.
  - assert (Hf : 0 <= Qfloor (phaseValue d * 31)%Q).
    { rewrite <- (Qfloor_Z 0). apply Qfloor_resp_le. change (inject_Z 0) with (0 # 1). lra. }
    unfold phaseIndex, js_rem, Math_floor.
    assert (Hr := Z.rem_bound_pos (Qfloor (phaseValue d * 31)%Q) 31 Hf ltac:(lia)). lia.
  - assert (Hlo : -30 <= Qfloor (phaseValue d * 31)%Q).
    { rewrite <- (Qfloor_Z (-30)). apply Qfloor_resp_le. change (inject_Z (-30)) with (-30 # 1). lra. }
    assert (Hhi : Qfloor (phaseValue d * 31)%Q < 0).
    { assert (Hf := Qfloor_le (phaseValue d * 31)%Q).
      rewrite Zlt_Qlt. change (inject_Z 0) with (0 # 1). lra. }
    assert (Hi : phaseIndex d = Qfloor (phaseValue d * 31)%Q).
    { unfold phaseIndex, js_rem, Math_floor.
      rewrite <- (Z.opp_involutive (Qfloor (phaseValue d * 31)%Q)) at 1.
      rewrite Z.rem_opp_l by lia. rewrite Z.rem_small by lia. lia. }
    split; [lia |]. simpl. unfold js_index. rewrite Hi.
    replace (Qfloor (phaseValue d * 31)%Q <? 0) with true by lia. reflexivity.
Qed.

Lemma toFixed2_num_within (x : Q) : (-90 <= x <= 90)%Q -> (-90 <= toFixed2_num x <= 90)%Q.
Proof.
  intro H. unfold toFixed2_num, toFixed2_digits.
  set (n := Qfloor (Qabs x * 100 + (1 # 2))%Q).
  assert (Hax : (Qabs x <= 90)%Q) by (apply Qabs_Qle_condition; lra).
  assert (Hn0 : 0 <= n).
  { unfold n. rewrite <- (Qfloor_Z 0). apply Qfloor_resp_le.
    assert (Ha := Qabs_nonneg x). change (inject_Z 0) with (0 # 1). lra. }
  assert (Hn1 : n <= 9000).
  { unfold n. change 9000 with (Qfloor (18001 # 2)). apply Qfloor_resp_le. lra. }
  rewrite Zle_Qle in Hn0, Hn1. change (inject_Z 0) with (0 # 1) in Hn0.
  change (inject_Z 9000) with (9000 # 1) in Hn1.
  destruct (toFixed2_neg x).
  - assert (E : ((- n # 100) == - inject_Z n * (1 # 100))%Q) by (unfold Qeq; simpl; lia).
    rewrite E. lra.
  - assert (E : ((n # 100) == inject_Z n * (1 # 100))%Q) by (unfold Qeq; simpl; lia).
    rewrite E. lra.
Qed.

(** When SunCalc's altitudes lie in [-90, 90] degrees, so do the recorded
    ones after rounding, and the chart bounds are defined with
    [sugestedYMax <= 100] and [sugestedYMin >= -100]. *)
Theorem todayData_bounds_within (formatTime : Z -> string) (altitudeAt : Z -> Q)
  (dayStart : Z) (Halt : forall t, (-90 <= altitudeAt t <= 90)%Q) :
  (forall v, In v (altitudeData (todayData formatTime altitudeAt dayStart)) -> (-90 <= v <= 90)%Q)
  /\ exists yMax yMin,
       sugestedYMax (minMaxY (todayData formatTime altitudeAt dayStart)) = Some yMax
       /\ sugestedYMin (minMaxY (todayData formatTime altitudeAt dayStart)) = Some yMin
       /\ yMax <= 100 /\ (-100 <= yMin)%Q.
Proof.
  assert (Hin : forall v, In v (map snd (_getAltituteData formatTime altitudeAt dayStart)) ->
                          (-90 <= v <= 90)%Q).
  { intros v Hv. apply in_map_iff in Hv as [[k v'] [Hv' Hkv]]. cbn in Hv'. subst v'.
    unfold _getAltituteData in Hkv.
    apply profile_fold_entries in Hkv as [[] | [i [_ Hp]]].
    injection Hp as _ ->. apply toFixed2_num_within. apply Halt. }
  split; [exact Hin |].
  destruct (profile_keys formatTime altitudeAt dayStart) as [_ Hk].
  assert (H0 := proj2 (Hk (formatTime (sampleTime dayStart 0))) (or_introl eq_refl)).
  unfold todayData. cbn [altitudeData minMaxY sugestedYMax sugestedYMin].
  destruct (_getAltituteData formatTime altitudeAt dayStart) as [| [k0 v0] r]; [destruct H0 |].
  cbn [map Math_max_list Math_min_list option_map].
  destruct (fold_max_spec (map snd r) v0) as [Hmx _].
  destruct (fold_min_spec (map snd r) v0) as [Hmn _].
  pose proof (Hin _ Hmx) as Hx. pose proof (Hin _ Hmn) as Hy.
  cbn [snd]. eexists; eexists. split; [reflexivity |]. split; [reflexivity |]. split.
  - unfold Math_ceil. change 100 with (Qceiling (100 # 1)). apply Qceiling_resp_le. lra.
  - lra.
Qed.

(** ** Witnesses of the further properties *)

Lemma moonData_age_unit_witness :
  value (moonAge (moonData "en" false (fun k _ _ _ => k) (fun s => s) (fun _ => "")
                    (fun _ => ("", None)) (fun _ => "") steep_sample
                    {| rise := 0; set := 0; highest := None |}))
  = "0.00 card.relativeTime.days".
Proof.
  refine (proj2 (moonData_age_unit "en" false (fun k _ _ _ => k) (fun s => s) (fun _ => "")
                   (fun _ => ("", None)) (fun _ => "") steep_sample
                   {| rise := 0; set := 0; highest := None |}) _ _ _); discriminate.
Defined.


(** An azimuth of 300 degrees points north-west; one of 400 has no compass point. *)
Lemma todayDataItem_direction_witness :
  let d (az : Q) := {| distance := 384400; azimuthDegrees := az; altitudeDegrees := 0;
                       fraction := 0; phaseValue := 0; nextFullMoon := 0; nextNewMoon := 0;
                       zenithAngle := 0; parallacticAngle := 0 |} in
  let it (az : Q) := azimuthCardinal (todayDataItem "en" false (fun k _ _ _ => k) (fun s => s)
                       (fun _ => "") (fun _ => ("", None)) (fun _ => "") (d az)
                       {| rise := 0; set := 0; highest := None |}) in
  value (it 300%Q) = "300°" /\ secondValue (it 300%Q) = "NW"
  /\ (exists p, In p compass8 /\ secondValue (it 300%Q) = p)
  /\ secondValue (it 400%Q) = "".
Proof.
  intros d it.
  destruct (todayDataItem_direction "en" false (fun k _ _ _ => k) (fun s => s)
              (fun _ => "") (fun _ => ("", None)) (fun _ => "") (d 300%Q)
              {| rise := 0; set := 0; highest := None |}) as (Hv & Hin & _).
  destruct (todayDataItem_direction "en" false (fun k _ _ _ => k) (fun s => s)
              (fun _ => "") (fun _ => ("", None)) (fun _ => "") (d 400%Q)
              {| rise := 0; set := 0; highest := None |}) as (_ & _ & Hout).
  split; [exact Hv |]. split; [vm_compute; reflexivity |].
  split; [apply Hin; simpl; lra |].
  apply Hout. left. simpl. lra.
Defined.

(** A moonrise at 13:45 UTC, read in UTC+2, is in slot 31 (15:30-16:00);
    a missing key gives [None]. *)
Lemma getRiseSetData_slot_witness :
  let times (k : string) := if String.eqb k "rise" then Some 49500000 else None in
  _getRiseSetData (fun _ => 12%Q) (fun _ => 7200000) times "highest" = None
  /\ exists r, _getRiseSetData (fun _ => 12%Q) (fun _ => 7200000) times "rise" = Some r
       /\ riseSetIndex r = 31 /\ riseSetAltitude r = 12%Q.
Proof.
  intro times.
  destruct (getRiseSetData_slot (fun _ => 12%Q) (fun _ => 7200000) times "highest") as [Hn _].
  destruct (getRiseSetData_slot (fun _ => 12%Q) (fun _ => 7200000) times "rise")
    as [_ Hs].
  split; [apply Hn; reflexivity |].
  destruct (Hs 49500000 eq_refl) as (r & Hr & Hi & _ & Ha).
  exists r. split; [exact Hr |]. split; [rewrite Hi; vm_compute; reflexivity | exact Ha].
Defined.

Lemma setMoonImagesToStorage_spec_witness :
  let st := [("theme", "dark"); ("moonImages", "old")] in
  obj_get (setMoonImagesToStorage ["a.png"; "b.png"] st) "moonImages" = Some "a.png,b.png"
  /\ obj_get (setMoonImagesToStorage ["a.png"; "b.png"] st) "theme" = Some "dark".
Proof.
  intro st.
  destruct (setMoonImagesToStorage_spec ["a.png"; "b.png"] st) as (Hm & Ho & _).
  split; [exact Hm |].
  rewrite (Ho "theme" ltac:(discriminate)). reflexivity.
Defined.

(** A phase value of -1/62 gives the index -1 and no image. *)
Lemma phaseIndex_sign_witness :
  let d := {| distance := 384400; azimuthDegrees := 0; altitudeDegrees := 0;
              fraction := 0; phaseValue := - (1 # 62); nextFullMoon := 0; nextNewMoon := 0;
              zenithAngle := 0; parallacticAngle := 0 |} in
  phaseIndex d = -1 /\ moonPic (moonImage ["m0"; "m1"] d) = None.
Proof.
  intro d.
  destruct (phaseIndex_sign ["m0"; "m1"] d) as [_ Hneg].
  destruct (Hneg ltac:(simpl; lra)) as [_ Hpic].
  split; [vm_compute; reflexivity | exact Hpic].
Defined.

(** An altitude that swings between -60 and 60 degrees. *)
Lemma todayData_bounds_within_witness :
  let alt (t : Z) := if Z.even (t / 1800000) then 60%Q else (-60)%Q in
  (forall t, (-90 <= alt t <= 90)%Q)
  /\ exists yMax yMin,
       sugestedYMax (minMaxY (todayData (formatedTime24 (fun _ => 0)) alt 0)) = Some yMax
       /\ sugestedYMin (minMaxY (todayData (formatedTime24 (fun _ => 0)) alt 0)) = Some yMin
       /\ yMax <= 100 /\ (-100 <= yMin)%Q.
Proof.
  intro alt.
  assert (Ha : forall t, (-90 <= alt t <= 90)%Q).
  { intro t. unfold alt. destruct (Z.even (t / 1800000)); lra. }
  split; [exact Ha |].
  exact (proj2 (todayData_bounds_within (formatedTime24 (fun _ => 0)) alt 0 Ha)).
Defined.
